(** * scripts/generate_maps.py: schema resolution, sampling and key reconciliation

    A shallow embedding of the two pipelines of [scripts/generate_maps.py]
    ([generate_sf_cluster_map] and [generate_choropleth]) together with the
    helper [find_lat_lon_columns], and the properties of the heuristic
    schema resolver, of the point sampling policy and of the GeoJSON key
    reconciler.

    The tabular reader ([pandas.read_csv]), the JSON reader ([json.load])
    and the renderer ([folium]) are external.  [generate_sf_cluster_map] and
    [generate_choropleth] below take the frame and the document that the
    readers returned and yield either the Python exception raised by the
    statements of the script or the arguments with which the script calls
    folium: they say what is handed over, not whether folium accepts it.
    The one call of folium whose outcome is modelled is [folium.Map] of
    line 66, which refuses a centre that is not a number
    ([generate_sf_cluster_map_centre]). *)

From stdpp Require Import gmap strings list.
From Stdlib Require Import ZArith QArith.QArith_base.

#[local] Set Warnings "-register-all".
#[local] Open Scope string_scope.
#[local] Open Scope Z_scope.

(** ** Python values *)

(** The value returned by [json.load]: [None], [bool], a number, [str],
    [list] or [dict] (whose keys are always strings). *)
Inductive json :=
  | JNull
  | JBool (b : bool)
  | JNum (x : Q)
  | JStr (s : string)
  | JArr (l : list json)
  | JObj (m : gmap string json).

(** The exceptions that the statements of the script can raise. *)
Inductive exn :=
  | ValueError (msg : string)
  | KeyError (key : json)
  | IndexError
  | TypeError
  | AttributeError.

Inductive result (A : Type) :=
  | Return (a : A)
  | Raise (e : exn).
Arguments Return {A} a.
Arguments Raise {A} e.

(** Sequencing of statements: an exception skips what follows
    (written [x ← r; k] below). *)
#[global] Instance result_bind : MBind result := λ A B k r,
  match r with
  | Return a => k a
  | Raise e => Raise e
  end.
#[global] Instance result_ret : MRet result := λ A a, Return a.

(** [not x] on an optional string: [None] and [''] are falsy. *)
Definition not_ (x : option string) : bool :=
  match x with
  | None => true
  | Some s => bool_decide (s = EmptyString)
  end.

(** [x or y] where [x] is an optional string. *)
Definition or_ (x y : option string) : option string :=
  if not_ x then y else x.

(** [next((c for c in l if p(c)), None)]. *)
Definition next_ (p : string → bool) (l : list string) : option string :=
  List.find p l.

(** ** Strings *)

(** [str.lower] on the ASCII range.  A column name is a sequence of bytes
    here; bytes outside [A-Z] are left alone.  (The only non-ASCII code
    point that Python lowers to an ASCII letter is U+212A, to [k], a letter
    that no candidate name contains.) *)
Definition lower_ascii (a : Ascii.ascii) : Ascii.ascii :=
  let n := Ascii.N_of_ascii a in
  if ((65 <=? n) && (n <=? 90))%N then Ascii.ascii_of_N (n + 32) else a.

Fixpoint lower (s : string) : string :=
  match s with
  | EmptyString => EmptyString
  | String a s' => String (lower_ascii a) (lower s')
  end.

(** [needle in hay] for two strings: substring test. *)
Fixpoint str_contains (needle hay : string) : bool :=
  String.prefix needle hay ||
  match hay with
  | EmptyString => false
  | String _ hay' => str_contains needle hay'
  end.

(** ** Data frames *)

(** A scalar of a CSV cell; [None] is the missing value (NaN). *)
Inductive scalar :=
  | Num (x : Q)
  | Text (s : string).

Definition cell : Type := option scalar.

(** A frame as [read_csv] returns it: the header and the rows, a field
    that a row lacks being missing. *)
Record DataFrame := {
  columns : list string;
  rows : list (list cell)
}.

Definition len (df : DataFrame) : Z := Z.of_nat (length (rows df)).

(** Position of a column label. *)
Definition get_loc (df : DataFrame) (c : string) : option nat :=
  fst <$> list_find (λ x, x = c) (columns df).

Definition iloc (i : nat) (row : list cell) : cell := mjoin (row !! i).

(** Positions of several labels; the first unknown one is a [KeyError]. *)
Fixpoint get_locs (df : DataFrame) (cs : list string) : result (list nat) :=
  match cs with
  | [] => Return []
  | c :: cs' =>
      match get_loc df c with
      | Some i => locs ← get_locs df cs'; Return (i :: locs)
      | None => Raise (KeyError (JStr c))
      end
  end.

(** [df[c]]: the column as a sequence of cells. *)
Definition getitem (df : DataFrame) (c : string) : result (list cell) :=
  match get_loc df c with
  | Some i => Return (iloc i <$> rows df)
  | None => Raise (KeyError (JStr c))
  end.

(** ** [find_lat_lon_columns] *)

Definition candidates_lat : list string :=
  ["lat"; "latitude"; "y"; "y_coord"; "ycoord"; "Latitude"; "LAT"].
Definition candidates_lon : list string :=
  ["lon"; "lng"; "longitude"; "x"; "x_coord"; "xcoord"; "Longitude"; "LON"].

Definition find_lat_lon_columns (df : DataFrame) : option string * option string :=
  let lat_col := next_ (λ c, bool_decide (c ∈ columns df)) candidates_lat in
  let lon_col := next_ (λ c, bool_decide (c ∈ columns df)) candidates_lon in
  (lat_col, lon_col).

(** ** The libraries behind the point pipeline

    What [generate_sf_cluster_map] calls and the script does not define:
    NumPy's generators ([RandomState seed] is a fresh generator seeded with
    [seed]; [choice g population n] is [g.choice(population, size=n,
    replace=False)], the positions drawn) and [Series.median]. *)
Class Library := {
  rng : Type;
  RandomState : Z → rng;
  choice : rng → nat → nat → list nat;
  median : list cell → result cell
}.

(** [df.dropna(subset=cs)]: the rows in which no column of [cs] is missing. *)
Definition notna_at (locs : list nat) (row : list cell) : bool :=
  forallb (λ i, bool_decide (is_Some (iloc i row))) locs.

Definition dropna (df : DataFrame) (subset : list string) : result DataFrame :=
  locs ← get_locs df subset;
  Return {| columns := columns df; rows := List.filter (notna_at locs) (rows df) |}.

(** [df.sample(n=n, random_state=random_state)], without replacement.  An
    integer [random_state] seeds a generator of its own; without one pandas
    draws from [np_random], the generator of the process, whose state
    differs from run to run. *)
Definition sample `{Library} (np_random : rng) (df : DataFrame) (n : Z)
    (random_state : option Z) : result DataFrame :=
  if n <? 0 then
    Raise (ValueError "A negative number of rows requested. Please provide `n` >= 0.")
  else if len df <? n then
    Raise (ValueError "Cannot take a larger sample than population when 'replace=False'")
  else
    let g := match random_state with
             | Some seed => RandomState seed
             | None => np_random
             end in
    let drawn := choice g (length (rows df)) (Z.to_nat n) in
    Return {| columns := columns df; rows := omap (λ i, rows df !! i) drawn |}.

(** ** [generate_sf_cluster_map] *)

(** A marker: its coordinates and, when a category column exists, the cell
    whose [str(...)] is the text of the pop-up. *)
Record CircleMarker := {
  marker_location : cell * cell;
  popup : option cell
}.

(** The map handed to folium: its centre and the markers of the cluster. *)
Record ClusterMap := {
  map_location : cell * cell;
  markers : list CircleMarker
}.

Definition sf_columns_not_found : string :=
  "Could not find latitude/longitude columns in the SF CSV. Expected columns like 'lat','latitude','lng','lon','y','x', etc.".

Definition candidates_category : list string :=
  ["category"; "Category"; "crime_type"; "offense"].

(** Lines 59-60: [if len(df) > max_points: df = df.sample(n=max_points, random_state=1)]. *)
Definition limit_points `{Library} (np_random : rng) (df : DataFrame) (max_points : Z)
    : result DataFrame :=
  if len df >? max_points then sample np_random df max_points (Some 1)
  else Return df.

(** [row[c]] and [row.get(c, '')] for a row of [df]. *)
Definition row_getitem (df : DataFrame) (row : list cell) (c : string) : result cell :=
  match get_loc df c with
  | Some i => Return (iloc i row)
  | None => Raise (KeyError (JStr c))
  end.

Definition circle_marker (df : DataFrame) (lat_col lon_col : string)
    (category_col : option string) (row : list cell) : result CircleMarker :=
  let popup_text :=
    match category_col with
    | Some c =>
        if not_ category_col then None
        else Some (match get_loc df c with
                   | Some i => iloc i row
                   | None => Some (Text EmptyString)
                   end)
    | None => None
    end in
  lat ← row_getitem df row lat_col;
  lon ← row_getitem df row lon_col;
  Return {| marker_location := (lat, lon); popup := popup_text |}.

(** The frame [df] is what [pd.read_csv(sf_csv)] returned.  The test of
    line 50 is on truthiness; past it both columns are names, so the last
    branch of the [match] is never taken.  A [Return] is the centre given to
    [folium.Map] and the markers given to [folium.CircleMarker]; what
    [folium.Map] makes of the centre is in [generate_sf_cluster_map_centre]. *)
Definition generate_sf_cluster_map `{Library} (np_random : rng) (df : DataFrame)
    (max_points : Z) : result ClusterMap :=
  let '(lat_col, lon_col) := find_lat_lon_columns df in
  if not_ lat_col || not_ lon_col then Raise (ValueError sf_columns_not_found)
  else
    match lat_col, lon_col with
    | Some lat_col, Some lon_col =>
        df ← dropna df [lat_col; lon_col];
        df ← limit_points np_random df max_points;
        lats ← getitem df lat_col;
        center_lat ← median lats;
        lons ← getitem df lon_col;
        center_lon ← median lons;
        let category_col :=
          next_ (λ c, bool_decide (c ∈ columns df)) candidates_category in
        ms ← mapM (circle_marker df lat_col lon_col category_col) (rows df);
        Return {| map_location := (center_lat, center_lon); markers := ms |}
    | _, _ => Raise (ValueError sf_columns_not_found)
    end.

(** ** [generate_choropleth] *)

Definition value_names : list string :=
  ["value"; "count"; "immigrants"; "migration"; "num"].
Definition country_names : list string :=
  ["country"; "country_name"; "origin"; "iso_a3"; "iso3"; "iso"].
Definition id_names : list string :=
  ["iso_a3"; "ISO_A3"; "iso3"; "id"; "ADM0_A3"; "ISO3"].

Definition migration_columns_not_found : string :=
  "Could not identify country or value columns in migration CSV. Please provide --migration-country-field and --migration-value-field flags.".

(** [j[k]] for a string [k]. *)
Definition getitem_str (j : json) (k : string) : result json :=
  match j with
  | JObj m =>
      match m !! k with
      | Some v => Return v
      | None => Raise (KeyError (JStr k))
      end
  | _ => Raise TypeError
  end.

(** [j[0]]. *)
Definition getitem_0 (j : json) : result json :=
  match j with
  | JArr (x :: _) => Return x
  | JArr [] => Raise IndexError
  | JStr (String a _) => Return (JStr (String a EmptyString))
  | JStr EmptyString => Raise IndexError
  | JObj _ => Raise (KeyError (JNum 0))
  | _ => Raise TypeError
  end.

(** [j.get(k, d)]: only a [dict] has the method. *)
Definition get (j : json) (k : string) (d : json) : result json :=
  match j with
  | JObj m => Return (default d (m !! k))
  | _ => Raise AttributeError
  end.

(** [f in j]: a key of a [dict], an element of a [list], a substring of a
    [str]; the other values are not containers. *)
Definition is_str (f : string) (j : json) : bool :=
  match j with
  | JStr s => bool_decide (s = f)
  | _ => false
  end.

Definition contains (j : json) (f : string) : result bool :=
  match j with
  | JObj m => Return (bool_decide (is_Some (m !! f)))
  | JArr l => Return (existsb (is_str f) l)
  | JStr s => Return (str_contains f s)
  | _ => Raise TypeError
  end.

(** [next((f for f in fs if f in j), None)]. *)
Fixpoint next_in (fs : list string) (j : json) : result (option string) :=
  match fs with
  | [] => Return None
  | f :: fs' =>
      b ← contains j f;
      if b : bool then Return (Some f) else next_in fs' j
  end.

(** [mdf[[a, b]]] with its columns renamed to [names]. *)
Definition take_locs (locs : list nat) (row : list cell) : list cell :=
  (λ i, iloc i row) <$> locs.

Definition project (df : DataFrame) (cs names : list string) : result DataFrame :=
  locs ← get_locs df cs;
  Return {| columns := names; rows := take_locs locs <$> rows df |}.

(** What [folium.Choropleth] receives. *)
Record Choropleth := {
  geo_data : json;
  data : DataFrame;
  key_on : string
}.

(** Lines 108-111: the identifying property, inferred when the caller gave none. *)
Definition infer_id_field (gj : json) (geojson_id_field : option string)
    : result (option string) :=
  match geojson_id_field with
  | None =>
      features ← getitem_str gj "features";
      first ← getitem_0 features;
      sample_props ← get first "properties" (JObj ∅);
      next_in id_names sample_props
  | Some _ => Return geojson_id_field
  end.

(** Lines 114-120. *)
Definition locator (geojson_id_field : option string) : string :=
  match geojson_id_field with
  | Some f => if not_ geojson_id_field then "feature.properties.name"
              else "feature.properties." +:+ f
  | None => "feature.properties.name"
  end.

(** Lines 95-96: the two columns, a truthy override winning over the scan
    of the header. *)
Definition infer_value_field (mdf : DataFrame) (migration_value_field : option string)
    : option string :=
  or_ migration_value_field
      (next_ (λ c, bool_decide (lower c ∈ value_names)) (columns mdf)).

Definition infer_country_field (mdf : DataFrame) (migration_country_field : option string)
    : option string :=
  or_ migration_country_field
      (next_ (λ c, bool_decide (lower c ∈ country_names)) (columns mdf)).

(** The frame [mdf] is what [pd.read_csv(migration_csv)] returned and [gj]
    what [json.load] returned; an argument left out is [None].  Line 98
    tests the two columns for [None].  A [Return] is the arguments of the
    call of [folium.Choropleth] at line 130: the statements of lines 95-125
    raised nothing.  What that call and [m.save] then do is not modelled. *)
Definition generate_choropleth (mdf : DataFrame) (gj : json)
    (geojson_id_field migration_country_field migration_value_field : option string)
    : result Choropleth :=
  let migration_value_field := infer_value_field mdf migration_value_field in
  let migration_country_field := infer_country_field mdf migration_country_field in
  match migration_country_field, migration_value_field with
  | Some country, Some value =>
      geojson_id_field ← infer_id_field gj geojson_id_field;
      let key_on := locator geojson_id_field in
      choro_df ← project mdf [country; value] ["country_key"; "value"];
      Return {| geo_data := gj; data := choro_df; key_on := key_on |}
  | _, _ => Raise (ValueError migration_columns_not_found)
  end.

(** ** A stand-in for the libraries

    Used to run the pipelines on concrete frames: the state of a generator
    is a number, seeding keeps the seed, a draw of [n] positions out of
    [population] is the window of [n] consecutive positions that starts at
    the state, and the median is the one of the numbers of the column, the
    missing value for an empty column, as in pandas. *)
Fixpoint insert_sorted (x : Q) (l : list Q) : list Q :=
  match l with
  | [] => [x]
  | y :: l' => if Qle_bool x y then x :: l else y :: insert_sorted x l'
  end.

Fixpoint numbers (l : list cell) : result (list Q) :=
  match l with
  | [] => Return []
  | None :: l' => numbers l'
  | Some (Num x) :: l' => xs ← numbers l'; Return (x :: xs)
  | Some (Text _) :: l' => Raise TypeError
  end.

Definition median_of (l : list cell) : result cell :=
  xs ← numbers l;
  let sorted := foldr insert_sorted [] xs in
  let n := length sorted in
  let mid := Nat.div n 2 in
  Return (match n with
          | O => None
          | _ => if Nat.even n
                 then Some (Num (Qdiv (Qplus (nth (Nat.pred mid) sorted 0%Q) (nth mid sorted 0%Q)) (2 # 1)))
                 else Some (Num (nth mid sorted 0%Q))
          end).

Definition window : Library := {|
  rng := nat;
  RandomState := Z.to_nat;
  choice := λ g population n, (λ i, Nat.modulo (g + i) population) <$> seq 0 n;
  median := median_of
|}.

(** ** Vocabulary of the statements *)

(** [x] is the first element of [l] that satisfies [p]. *)
Definition first_match {A} (p : A → bool) (l : list A) (x : A) : Prop :=
  ∃ l1 l2, l = (l1 ++ x :: l2)%list ∧ p x = true ∧ Forall (λ y, p y = false) l1.

(** The resolver in the words of the specification: the first candidate,
    in the order of the candidate list, that is a column of the schema. *)
Definition first_candidate_present (candidates schema : list string) : option string :=
  List.find (λ c, bool_decide (c ∈ schema)) candidates.

(** The marker that lines 72-83 build for a row: the cells at the positions
    [i] and [j] of the two coordinate columns and, when the category column
    is at position [k], the cell at [k] for the pop-up. *)
Definition marker_of (i j : nat) (category : option nat) (row : list cell) : CircleMarker :=
  {| marker_location := (iloc i row, iloc j row);
     popup := (λ k, iloc k row) <$> category |}.

(** Position of the category column of line 70, if the header has one. *)
Definition category_loc (df : DataFrame) : option nat :=
  next_ (λ c, bool_decide (c ∈ columns df)) candidates_category ≫= get_loc df.

(** The rows of [df] whose cells at [i] and [j] are both present. *)
Definition complete_rows (i j : nat) (df : DataFrame) : list (list cell) :=
  List.filter (notna_at [i; j]) (rows df).

(** ** [folium.Map] and the centre (line 66)

    [folium.Map(location=[center_lat, center_lon], ...)] starts by
    validating its location (folium's [validate_location]): each coordinate
    in turn is converted with [float] and must not be NaN, or the call
    raises [ValueError].  The missing value is the float NaN.  [float_str]
    stands for [float] on a [str] followed by the same test. *)
Definition validate_coordinate (float_str : string → result Q) (c : cell) : result Q :=
  match c with
  | None => Raise (ValueError "Location values cannot contain NaNs.")
  | Some (Num x) => Return x
  | Some (Text s) => float_str s
  end.

Definition validate_location (float_str : string → result Q) (location : cell * cell)
    : result (Q * Q) :=
  lat ← validate_coordinate float_str location.1;
  lon ← validate_coordinate float_str location.2;
  Return (lat, lon).

(** [generate_sf_cluster_map] through line 66: the exception raised so far,
    or the centre with which the map is created. *)
Definition generate_sf_cluster_map_centre `{Library} (float_str : string → result Q)
    (np_random : rng) (df : DataFrame) (max_points : Z) : result (Q * Q) :=
  let '(lat_col, lon_col) := find_lat_lon_columns df in
  if not_ lat_col || not_ lon_col then Raise (ValueError sf_columns_not_found)
  else
    match lat_col, lon_col with
    | Some lat_col, Some lon_col =>
        df ← dropna df [lat_col; lon_col];
        df ← limit_points np_random df max_points;
        lats ← getitem df lat_col;
        center_lat ← median lats;
        lons ← getitem df lon_col;
        center_lon ← median lons;
        validate_location float_str (center_lat, center_lon)
    | _, _ => Raise (ValueError sf_columns_not_found)
    end.

(** A stand-in for [float] on a [str], for frames whose medians are numbers
    or missing. *)
Definition no_float_str (s : string) : result Q :=
  Raise (ValueError "could not convert string to float").

(** ** The resolver with skipping, in the words of the specification

    Two roles are resolved one after the other, and the second one passes
    over a column that the first one holds. *)
Definition skip_claimed (claimed : option string) (p : string → bool) (c : string) : bool :=
  p c && negb (bool_decide (claimed = Some c)).

Definition find_lat_lon_columns_skipping (df : DataFrame) : option string * option string :=
  let lat_col := next_ (λ c, bool_decide (c ∈ columns df)) candidates_lat in
  let lon_col :=
    next_ (skip_claimed lat_col (λ c, bool_decide (c ∈ columns df))) candidates_lon in
  (lat_col, lon_col).

Definition infer_fields_skipping (mdf : DataFrame) : option string * option string :=
  let value := next_ (λ c, bool_decide (lower c ∈ value_names)) (columns mdf) in
  let country :=
    next_ (skip_claimed value (λ c, bool_decide (lower c ∈ country_names))) (columns mdf) in
  (country, value).

(** * Properties *)

(** ** [next] *)

Lemma next_Some {p l x} : next_ p l = Some x ↔ first_match p l x.
Proof.
  unfold next_, first_match. split.
  - induction l as [|y l IH]; simpl; [discriminate|].
    destruct (p y) eqn:Hy.
    + intros [= ->]. by exists [], l.
    + intros (l1 & l2 & -> & Hx & Hl1)%IH.
      exists (y :: l1), l2. by repeat split; [|constructor].
  - intros (l1 & l2 & -> & Hx & Hl1).
    induction Hl1 as [|y l1 Hy _ IH]; simpl; [by rewrite Hx|by rewrite Hy].
Qed.

Lemma next_None {p l} : next_ p l = None ↔ Forall (λ y, p y = false) l.
Proof.
  unfold next_. induction l as [|y l IH]; simpl.
  - split; [constructor|done].
  - destruct (p y) eqn:Hy.
    + split; [done|]. intros [? _]%Forall_cons. congruence.
    + rewrite IH. split; [by constructor|by intros [_ ?]%Forall_cons].
Qed.

Lemma next_Exists {p l} :
  Exists (λ y, p y = true) l → ∃ x, next_ p l = Some x ∧ first_match p l x.
Proof.
  intros Hex. destruct (next_ p l) as [x|] eqn:Hn.
  - exists x. split; [done|]. by apply next_Some.
  - apply next_None in Hn. apply Exists_exists in Hex as (y & Hy & Hpy).
    rewrite Forall_forall in Hn. specialize (Hn y Hy). congruence.
Qed.

Lemma next_elem {p l x} : next_ p l = Some x → x ∈ l ∧ p x = true.
Proof.
  intros (l1 & l2 & -> & Hx & _)%next_Some. split; [|done].
  apply list_elem_of_In, in_or_app. right. by left.
Qed.

(** ** Truthiness *)

Lemma not_false {x} : not_ x = false → ∃ s, x = Some s ∧ s ≠ EmptyString.
Proof.
  destruct x as [s|]; simpl; [|done].
  intros Hs%bool_decide_eq_false. by exists s.
Qed.

Lemma or_falsy {x y} : not_ x = true → or_ x y = y.
Proof. unfold or_. by intros ->. Qed.

Lemma or_truthy {s y} : s ≠ EmptyString → or_ (Some s) y = Some s.
Proof. unfold or_. simpl. intros Hs. by rewrite bool_decide_eq_false_2. Qed.

(** ** The candidate tables *)

Lemma candidates_disjoint :
  Forall (λ c, c ∉ candidates_lon) candidates_lat ∧
  Forall (λ c, c ∉ country_names) value_names.
Proof. split; apply (bool_decide_unpack _); vm_compute; exact I. Qed.

Lemma names_nonempty :
  Forall (λ c, c ≠ EmptyString)
    (candidates_lat ++ candidates_lon ++ value_names ++ country_names)%list.
Proof. apply (bool_decide_unpack _); vm_compute; exact I. Qed.

Lemma lower_empty s : lower s = EmptyString → s = EmptyString.
Proof. by destruct s. Qed.

(** A column that the scan of the header returns is never the empty name. *)
Lemma scanned_nonempty (names cols : list string) c :
  Forall (λ n, n ≠ EmptyString) names →
  next_ (λ c, bool_decide (lower c ∈ names)) cols = Some c → c ≠ EmptyString.
Proof.
  intros Hne [_ Hc%bool_decide_eq_true]%next_elem ->.
  rewrite Forall_forall in Hne. by apply (Hne _ Hc).
Qed.

Lemma value_names_nonempty : Forall (λ n, n ≠ EmptyString) value_names.
Proof. apply (bool_decide_unpack _); vm_compute; exact I. Qed.

Lemma country_names_nonempty : Forall (λ n, n ≠ EmptyString) country_names.
Proof. apply (bool_decide_unpack _); vm_compute; exact I. Qed.

(** ** Schema resolver *)

(** C4, as the code has it: in [find_lat_lon_columns] a role whose candidate
    list meets the header gets the first candidate, in the order of the
    candidate list, that is a column; in [generate_choropleth], without an
    override, a role gets the first column, in the order of the header, whose
    lower-cased name is one of the role's names. *)
Theorem resolver_first_match (df : DataFrame) :
  (Exists (λ c, c ∈ columns df) candidates_lat →
   ∃ c, (find_lat_lon_columns df).1 = Some c ∧
        first_match (λ c, bool_decide (c ∈ columns df)) candidates_lat c) ∧
  (Exists (λ c, c ∈ columns df) candidates_lon →
   ∃ c, (find_lat_lon_columns df).2 = Some c ∧
        first_match (λ c, bool_decide (c ∈ columns df)) candidates_lon c) ∧
  (Exists (λ c, lower c ∈ value_names) (columns df) →
   ∃ c, infer_value_field df None = Some c ∧
        first_match (λ c, bool_decide (lower c ∈ value_names)) (columns df) c) ∧
  (Exists (λ c, lower c ∈ country_names) (columns df) →
   ∃ c, infer_country_field df None = Some c ∧
        first_match (λ c, bool_decide (lower c ∈ country_names)) (columns df) c).
Proof.
  repeat split; intros Hex; apply next_Exists;
    (eapply Exists_impl; [exact Hex|]); intros c Hc; by apply bool_decide_eq_true.
Qed.

Lemma resolver_first_match_witness :
  let df := {| columns := ["count"; "LON"; "Latitude"; "ISO"; "lat"; "value"; "country"; "x"];
               rows := [] |} in
  (∃ c, (find_lat_lon_columns df).1 = Some c ∧
        first_match (λ c, bool_decide (c ∈ columns df)) candidates_lat c) ∧
  (∃ c, (find_lat_lon_columns df).2 = Some c ∧
        first_match (λ c, bool_decide (c ∈ columns df)) candidates_lon c) ∧
  (∃ c, infer_value_field df None = Some c ∧
        first_match (λ c, bool_decide (lower c ∈ value_names)) (columns df) c) ∧
  (∃ c, infer_country_field df None = Some c ∧
        first_match (λ c, bool_decide (lower c ∈ country_names)) (columns df) c).
Proof.
  intros df. destruct (resolver_first_match df) as (Hlat & Hlon & Hval & Hcountry).
  repeat split; [apply Hlat|apply Hlon|apply Hval|apply Hcountry];
    apply (bool_decide_unpack _); vm_compute; exact I.
Defined.

(** C4, as the specification words it, fails in [generate_choropleth]: with
    the header [count, value] the value role gets [count], the first column,
    although [value] is in the header and comes first among the names. *)
Lemma join_resolver_follows_header_counterexample :
  let df := {| columns := ["count"; "value"]; rows := [] |} in
  infer_value_field df None = Some "count" ∧
  first_candidate_present value_names (columns df) = Some "value" ∧
  infer_value_field df None ≠ first_candidate_present value_names (columns df).
Proof. by repeat split. Qed.

(** In [find_lat_lon_columns] the code and the wording of the
    specification agree. *)
Lemma find_lat_lon_columns_spec (df : DataFrame) :
  find_lat_lon_columns df =
  (first_candidate_present candidates_lat (columns df),
   first_candidate_present candidates_lon (columns df)).
Proof. reflexivity. Qed.

Lemma find_lat_lon_columns_elem (df : DataFrame) (a b : string) :
  find_lat_lon_columns df = (Some a, Some b) →
  a ∈ candidates_lat ∧ b ∈ candidates_lon ∧ a ∈ columns df ∧ b ∈ columns df.
Proof.
  intros Heq.
  pose proof (f_equal fst Heq) as Ha. pose proof (f_equal snd Heq) as Hb.
  change (next_ (λ c, bool_decide (c ∈ columns df)) candidates_lat = Some a) in Ha.
  change (next_ (λ c, bool_decide (c ∈ columns df)) candidates_lon = Some b) in Hb.
  apply next_elem in Ha as [? ?%bool_decide_eq_true].
  apply next_elem in Hb as [? ?%bool_decide_eq_true]. done.
Qed.

(** C7: for every schema the columns that the resolver infers for two
    distinct roles differ, in [find_lat_lon_columns] and in the scans of
    lines 95-96 alike.  The roles are resolved independently, and since no
    name is a candidate of two roles, passing over a claimed column never
    comes into play ([skipping_changes_nothing]). *)
Theorem inferred_roles_distinct (df : DataFrame) (country value : option string)
    (a b : string) :
  (find_lat_lon_columns df = (Some a, Some b) → a ≠ b) ∧
  (not_ value = true → not_ country = true →
   infer_value_field df value = Some a → infer_country_field df country = Some b →
   a ≠ b).
Proof.
  destruct candidates_disjoint as [Hpoint Hjoin]. split.
  - intros (Ha & Hb & _)%find_lat_lon_columns_elem ->.
    rewrite Forall_forall in Hpoint. by apply (Hpoint b).
  - unfold infer_value_field, infer_country_field. intros Hv Hc.
    rewrite (or_falsy Hv), (or_falsy Hc).
    intros [_ Ha%bool_decide_eq_true]%next_elem [_ Hb%bool_decide_eq_true]%next_elem ->.
    rewrite Forall_forall in Hjoin. by apply (Hjoin (lower b)).
Qed.

Lemma inferred_roles_distinct_witness :
  let df := {| columns := ["LAT"; "x"; "Count"; "ISO3"]; rows := [] |} in
  "LAT" ≠ "x" ∧ "Count" ≠ "ISO3".
Proof.
  intros df. split.
  - destruct (inferred_roles_distinct df None None "LAT" "x") as [Hpoint _].
    apply Hpoint. reflexivity.
  - destruct (inferred_roles_distinct df None (Some EmptyString) "Count" "ISO3") as [_ Hjoin].
    apply Hjoin; reflexivity.
Defined.

Lemma next_ext_in (p q : string → bool) (l : list string) :
  Forall (λ x, p x = q x) l → next_ p l = next_ q l.
Proof.
  unfold next_. induction 1 as [|x l Hx _ IH]; [done|]. simpl. by rewrite Hx, IH.
Qed.

(** The resolver that passes over claimed columns gives, on every schema,
    what the code gives: the column that one role holds is never a
    candidate of the other. *)
Lemma skipping_changes_nothing (df : DataFrame) :
  find_lat_lon_columns_skipping df = find_lat_lon_columns df ∧
  infer_fields_skipping df = (infer_country_field df None, infer_value_field df None).
Proof.
  destruct candidates_disjoint as [Hpoint Hjoin].
  rewrite Forall_forall in Hpoint. rewrite Forall_forall in Hjoin.
  split.
  - unfold find_lat_lon_columns_skipping, find_lat_lon_columns. cbv zeta. f_equal.
    apply next_ext_in, Forall_forall. intros c Hc. unfold skip_claimed.
    rewrite (bool_decide_eq_false_2 (_ = Some c)); [apply andb_true_r|].
    intros [Ha _]%next_elem. by apply (Hpoint c).
  - unfold infer_fields_skipping, infer_country_field, infer_value_field.
    rewrite !(or_falsy (x := None)) by done. cbv zeta. f_equal.
    apply next_ext_in, Forall_forall. intros c _. unfold skip_claimed.
    destruct (bool_decide (lower c ∈ country_names)) eqn:Hc; [|done].
    rewrite (bool_decide_eq_false_2 (_ = Some c)); [done|].
    intros [_ Ha%bool_decide_eq_true]%next_elem.
    apply bool_decide_eq_true in Hc. by apply (Hjoin (lower c)).
Qed.

(** Overrides are not inferred columns: one that names the column of the
    other role is taken as it is. *)
Lemma override_may_repeat_column :
  let mdf := {| columns := ["country"; "iso3"]; rows := [] |} in
  infer_value_field mdf (Some "country") = Some "country" ∧
  infer_country_field mdf None = Some "country".
Proof. by split. Qed.

(** C3, as the code has it: a pipeline whose required role cannot be
    inferred raises [ValueError] before any other step, with a message that
    is a constant of the script.  In [generate_choropleth] a role is
    unresolved when its override is falsy and no column, lower-cased, is
    one of its names. *)
Theorem unresolved_role_raises `{Library} (np_random : rng) (df : DataFrame)
    (max_points : Z) (gj : json) (geojson_id_field country value : option string) :
  (Forall (λ c, c ∉ columns df) candidates_lat ∨
   Forall (λ c, c ∉ columns df) candidates_lon →
   generate_sf_cluster_map np_random df max_points
   = Raise (ValueError sf_columns_not_found)) ∧
  (not_ country = true ∧ Forall (λ c, lower c ∉ country_names) (columns df) ∨
   not_ value = true ∧ Forall (λ c, lower c ∉ value_names) (columns df) →
   generate_choropleth df gj geojson_id_field country value
   = Raise (ValueError migration_columns_not_found)).
Proof.
  split.
  - intros Hmiss. unfold generate_sf_cluster_map, find_lat_lon_columns.
    assert (∀ l : list string, Forall (λ c, c ∉ columns df) l →
                 next_ (λ c, bool_decide (c ∈ columns df)) l = None) as Hnone.
    { intros l Hl. apply next_None. eapply Forall_impl; [exact Hl|].
      intros c Hc. by apply bool_decide_eq_false. }
    destruct Hmiss as [Hl%Hnone|Hl%Hnone]; rewrite Hl; simpl; [done|].
    by rewrite orb_true_r.
  - intros Hmiss. unfold generate_choropleth.
    assert (∀ names : list string, Forall (λ c, lower c ∉ names) (columns df) →
                     next_ (λ c, bool_decide (lower c ∈ names)) (columns df) = None)
      as Hnone.
    { intros names Hl. apply next_None. eapply Forall_impl; [exact Hl|].
      intros c Hc. by apply bool_decide_eq_false. }
    destruct Hmiss as [[Ho Hl%Hnone]|[Ho Hl%Hnone]].
    + unfold infer_country_field at 1. rewrite (or_falsy Ho), Hl. done.
    + unfold infer_value_field at 1. rewrite (or_falsy Ho), Hl.
      by destruct (infer_country_field df country).
Qed.

Lemma unresolved_role_raises_witness :
  let df := {| columns := ["lat"; "station"; "Country"]; rows := [[None; None; None]] |} in
  @generate_sf_cluster_map window 7%nat df 10
  = Raise (ValueError sf_columns_not_found) ∧
  generate_choropleth df JNull None (Some EmptyString) None
  = Raise (ValueError migration_columns_not_found).
Proof.
  intros df.
  destruct (@unresolved_role_raises window 7%nat df 10 JNull None (Some EmptyString) None)
    as [Hpoint Hjoin].
  split.
  - apply Hpoint. right. apply (bool_decide_unpack _). vm_compute. exact I.
  - apply Hjoin. right. split; [reflexivity|].
    apply (bool_decide_unpack _). vm_compute. exact I.
Defined.

(** C3, as the specification words it, fails: the exception carries neither
    the role that is unresolved nor the header.  One header lacks the
    longitude, the other the latitude, and both runs raise the same
    [ValueError], whose text mentions no column of either header; likewise
    in the join pipeline.  A header with [Country] and [VALUE] is resolved
    although it has none of the names as they are listed. *)
Lemma error_is_constant_counterexample :
  let df1 := {| columns := ["lat"; "station"]; rows := [] |} in
  let df2 := {| columns := ["depth"; "lon"]; rows := [] |} in
  let mdf := {| columns := ["Country"; "VALUE"]; rows := [] |} in
  @generate_sf_cluster_map window 0%nat df1 10
  = @generate_sf_cluster_map window 0%nat df2 10 ∧
  @generate_sf_cluster_map window 0%nat df1 10 = Raise (ValueError sf_columns_not_found) ∧
  str_contains "station" sf_columns_not_found = false ∧
  str_contains "depth" sf_columns_not_found = false ∧
  generate_choropleth df1 JNull None None None
  = Raise (ValueError migration_columns_not_found) ∧
  str_contains "station" migration_columns_not_found = false ∧
  Forall (λ c, c ∉ columns mdf) (value_names ++ country_names)%list ∧
  infer_value_field mdf None = Some "VALUE" ∧
  infer_country_field mdf None = Some "Country".
Proof.
  repeat split; try reflexivity.
  apply (bool_decide_unpack _). vm_compute. exact I.
Qed.

(** ** Point sampling *)

(** C6: the sample does not depend on the generator of the process, whose
    state is the only input of a draw that varies between two runs: the
    retained rows, and with them the whole result of the pipeline, are a
    function of the frame and of [max_points]. *)
Theorem sampling_deterministic `{Library} (np_random1 np_random2 : rng)
    (df : DataFrame) (max_points : Z) :
  limit_points np_random1 df max_points = limit_points np_random2 df max_points ∧
  generate_sf_cluster_map np_random1 df max_points
  = generate_sf_cluster_map np_random2 df max_points.
Proof. split; reflexivity. Qed.

(** It is the seed that makes it so: an unseeded draw follows the generator
    of the process. *)
Lemma unseeded_sample_varies :
  let df := {| columns := ["lat"]; rows := [[Some (Num 1)]; [Some (Num 2)]] |} in
  @sample window 0%nat df 1 None ≠ @sample window 1%nat df 1 None ∧
  @sample window 0%nat df 1 (Some 1) = @sample window 1%nat df 1 (Some 1).
Proof. split; [discriminate|reflexivity]. Qed.

Lemma limit_points_le `{Library} (np_random : rng) (df : DataFrame) (max_points : Z) :
  len df ≤ max_points → limit_points np_random df max_points = Return df.
Proof.
  intros Hle. unfold limit_points.
  destruct (Z.gtb_spec (len df) max_points) as [Hgt|_]; [lia|done].
Qed.

(** C9: when at most [max_points] rows remain after the filtering, the
    sampling step returns the filtered frame itself: the same rows in the
    same order. *)
Theorem sampling_identity_below_cap `{Library} (np_random : rng) (df : DataFrame)
    (max_points : Z) :
  len df ≤ max_points → limit_points np_random df max_points = Return df.
Proof. apply limit_points_le. Qed.

Lemma sampling_identity_below_cap_witness :
  let df := {| columns := ["lat"; "lon"];
               rows := [[Some (Num 3); Some (Num 4)]; [Some (Num 1); Some (Num 2)]] |} in
  @limit_points window 5%nat df 2 = Return df.
Proof.
  intros df. apply (@sampling_identity_below_cap window 5%nat df 2).
  vm_compute. discriminate.
Defined.

(** Above the cap exactly the rows that the seeded draw designates are kept. *)
Lemma sampling_above_cap `{Library} (np_random : rng) (df : DataFrame) (max_points : Z) :
  0 ≤ max_points < len df →
  limit_points np_random df max_points
  = Return {| columns := columns df;
              rows := omap (λ i, rows df !! i)
                        (choice (RandomState 1) (length (rows df)) (Z.to_nat max_points)) |}.
Proof.
  intros [H0 Hlt]. unfold limit_points, sample.
  destruct (Z.gtb_spec (len df) max_points); [|lia].
  destruct (Z.ltb_spec max_points 0); [lia|].
  destruct (Z.ltb_spec (len df) max_points); [lia|done].
Qed.

(** ** Filtering *)

Lemma get_loc_elem (df : DataFrame) (c : string) :
  c ∈ columns df → ∃ i, get_loc df c = Some i.
Proof.
  intros Hc. unfold get_loc.
  destruct (list_find (λ x, x = c) (columns df)) as [[i x]|] eqn:Hf; [by exists i|].
  apply list_find_None in Hf. rewrite Forall_forall in Hf. by destruct (Hf c Hc).
Qed.



(** Filtering keeps every row whose two coordinates are present, in order. *)
Lemma dropna_keeps_complete_rows (df : DataFrame) (i j : nat) (row : list cell) :
  row ∈ rows df → is_Some (iloc i row) → is_Some (iloc j row) →
  row ∈ List.filter (notna_at [i; j]) (rows df).
Proof.
  intros Hrow Hi Hj. apply list_elem_of_In, filter_In. split.
  - by apply list_elem_of_In.
  - unfold notna_at. simpl. by rewrite !bool_decide_eq_true_2.
Qed.

(** ** Key reconciler *)

Lemma next_in_dict (fs : list string) (props : gmap string json) :
  next_in fs (JObj props)
  = Return (next_ (λ f, bool_decide (is_Some (props !! f))) fs).
Proof.
  induction fs as [|f fs IH]; [done|]. simpl.
  destruct (bool_decide (is_Some (props !! f))); [done|]. exact IH.
Qed.

(** The inference looks at the first feature only. *)
Lemma infer_id_field_first (m fm props : gmap string json) (rest : list json) :
  m !! "features" = Some (JArr (JObj fm :: rest)) →
  default (JObj ∅) (fm !! "properties") = JObj props →
  infer_id_field (JObj m) None
  = Return (next_ (λ f, bool_decide (is_Some (props !! f))) id_names).
Proof.
  intros Hm Hfm. unfold infer_id_field, getitem_str. rewrite Hm.
  change (next_in id_names (default (JObj ∅) (fm !! "properties")) = 
          Return (next_ (λ f, bool_decide (is_Some (props !! f))) id_names)).
  rewrite Hfm. apply next_in_dict.
Qed.

Lemma locator_truthy (f : string) :
  f ≠ EmptyString → locator (Some f) = "feature.properties." +:+ f.
Proof. intros Hf. unfold locator. simpl. by rewrite bool_decide_eq_false_2. Qed.

Lemma id_names_nonempty : Forall (λ n, n ≠ EmptyString) id_names.
Proof. apply (bool_decide_unpack _); vm_compute; exact I. Qed.

(** What the pipeline returns once its two columns are known. *)
Lemma generate_choropleth_Return (mdf : DataFrame) (gj : json)
    (geojson_id_field migration_country_field migration_value_field : option string)
    (country value : string) (i j : nat) (id : option string) :
  infer_country_field mdf migration_country_field = Some country →
  infer_value_field mdf migration_value_field = Some value →
  get_loc mdf country = Some i →
  get_loc mdf value = Some j →
  infer_id_field gj geojson_id_field = Return id →
  generate_choropleth mdf gj geojson_id_field migration_country_field migration_value_field
  = Return {| geo_data := gj;
              data := {| columns := ["country_key"; "value"];
                         rows := (λ row, [iloc i row; iloc j row]) <$> rows mdf |};
              key_on := locator id |}.
Proof.
  intros Hc Hv Hi Hj Hid. unfold generate_choropleth.
  rewrite Hc, Hv, Hid. simpl. unfold project. simpl. by rewrite Hi, Hj.
Qed.

(** A column that the scan infers is in the header. *)
Lemma inferred_in_header (mdf : DataFrame) (names : list string) (c : string) :
  next_ (λ c, bool_decide (lower c ∈ names)) (columns mdf) = Some c →
  ∃ i, get_loc mdf c = Some i.
Proof. intros [Hc _]%next_elem. by apply get_loc_elem. Qed.

(** C1, as the code has it: without a property name from the caller the
    inference reads the properties of the first feature only and takes the
    first name of [iso_a3, ISO_A3, iso3, id, ADM0_A3, ISO3] that is a key of
    them; [id] is the fourth name, before [ADM0_A3] and [ISO3].  Properties
    with [ADM0_A3] and none of the four names before it give [ADM0_A3] and
    the locator [feature.properties.ADM0_A3]. *)
Theorem id_field_first_feature_priority (m fm props : gmap string json)
    (rest : list json) :
  m !! "features" = Some (JArr (JObj fm :: rest)) →
  default (JObj ∅) (fm !! "properties") = JObj props →
  id_names = ["iso_a3"; "ISO_A3"; "iso3"; "id"; "ADM0_A3"; "ISO3"] ∧
  (∀ f, f ∈ id_names → is_Some (props !! f) →
   ∃ f', infer_id_field (JObj m) None = Return (Some f') ∧
         first_match (λ f, bool_decide (is_Some (props !! f))) id_names f' ∧
         locator (Some f') = "feature.properties." +:+ f') ∧
  (is_Some (props !! "ADM0_A3") →
   props !! "iso_a3" = None → props !! "ISO_A3" = None →
   props !! "iso3" = None → props !! "id" = None →
   infer_id_field (JObj m) None = Return (Some "ADM0_A3") ∧
   locator (Some "ADM0_A3") = "feature.properties.ADM0_A3").
Proof.
  intros Hm Hfm. rewrite (infer_id_field_first m fm props rest Hm Hfm).
  split; [done|]. split.
  - intros f Hf Hpf.
    destruct (next_Exists (p := λ f, bool_decide (is_Some (props !! f))) (l := id_names))
      as (f' & Hnext & Hfirst).
    { apply Exists_exists. exists f. by rewrite bool_decide_eq_true. }
    exists f'. rewrite Hnext. repeat split; [done|].
    apply locator_truthy. apply next_elem in Hnext as [Hin _].
    pose proof id_names_nonempty as Hne. rewrite Forall_forall in Hne. by apply Hne.
  - intros Hadm H1 H2 H3 H4. split; [|done].
    unfold next_, id_names. simpl. rewrite H1, H2, H3, H4.
    rewrite !(bool_decide_eq_false_2 (is_Some None)) by (by intros [? ?]).
    by rewrite bool_decide_eq_true_2.
Qed.

Lemma id_field_first_feature_priority_witness :
  let props : gmap string json :=
    list_to_map [("ADM0_A3", JStr "USA"); ("name", JStr "United States")] in
  let fm : gmap string json := list_to_map [("properties", JObj props)] in
  let others := [JObj (list_to_map [("properties", JObj (list_to_map [("iso_a3", JStr "CAN")]))])] in
  let m : gmap string json := list_to_map [("features", JArr (JObj fm :: others))] in
  infer_id_field (JObj m) None = Return (Some "ADM0_A3") ∧
  locator (Some "ADM0_A3") = "feature.properties.ADM0_A3".
Proof.
  intros props fm others m.
  destruct (id_field_first_feature_priority m fm props others) as (_ & _ & Hex);
    [reflexivity|reflexivity|].
  apply Hex; [by eexists|reflexivity..].
Defined.

(** C1, as the specification words it, fails: [id] is not the last name.
    On a first feature that has both [id] and [ADM0_A3] the inference takes
    [id], and the last name of the list is [ISO3]. *)
Lemma id_before_ADM0_A3_counterexample :
  let props : gmap string json :=
    list_to_map [("ADM0_A3", JStr "USA"); ("id", JStr "840")] in
  let fm : gmap string json := list_to_map [("properties", JObj props)] in
  let m : gmap string json := list_to_map [("features", JArr [JObj fm])] in
  infer_id_field (JObj m) None = Return (Some "id") ∧
  locator (Some "id") = "feature.properties.id" ∧
  last id_names = Some "ISO3".
Proof. by repeat split. Qed.

(** C5, as the code has it: a document that is an object without the key
    [features] makes the pipeline raise [KeyError('features')] when the two
    columns are resolved and the caller names no identifying property. *)
Theorem missing_features_KeyError (mdf : DataFrame) (m : gmap string json)
    (migration_country_field migration_value_field : option string)
    (country value : string) :
  m !! "features" = None →
  infer_country_field mdf migration_country_field = Some country →
  infer_value_field mdf migration_value_field = Some value →
  generate_choropleth mdf (JObj m) None migration_country_field migration_value_field
  = Raise (KeyError (JStr "features")).
Proof.
  intros Hm Hc Hv. unfold generate_choropleth. rewrite Hc, Hv.
  unfold infer_id_field, getitem_str. by rewrite Hm.
Qed.

Lemma missing_features_KeyError_witness :
  let mdf := {| columns := ["Country"; "Value"];
                rows := [[Some (Text "Germany"); Some (Num 7)]] |} in
  let m : gmap string json := list_to_map [("type", JStr "Feature"); ("geometry", JNull)] in
  generate_choropleth mdf (JObj m) None None None = Raise (KeyError (JStr "features")).
Proof.
  intros mdf m.
  apply (missing_features_KeyError mdf m None None "Country" "Value"); reflexivity.
Defined.

(** C5, as the specification words it, fails: with a property name from the
    caller the pipeline never reads the feature list, and a document without
    one goes to folium as it is; and when a column is unresolved the
    [ValueError] of the resolver comes first. *)
Lemma missing_features_unnoticed_counterexample :
  let mdf := {| columns := ["Country"; "Value"];
                rows := [[Some (Text "Germany"); Some (Num 7)]] |} in
  let gj := JObj (list_to_map [("type", JStr "Feature");
                               ("properties", JObj (list_to_map [("iso_a3", JStr "DEU")]));
                               ("geometry", JNull)]) in
  generate_choropleth mdf gj (Some "iso_a3") None None
  = Return {| geo_data := gj;
              data := {| columns := ["country_key"; "value"];
                         rows := [[Some (Text "Germany"); Some (Num 7)]] |};
              key_on := "feature.properties.iso_a3" |} ∧
  generate_choropleth {| columns := ["Country"]; rows := [] |} gj None None None
  = Raise (ValueError migration_columns_not_found).
Proof. split; reflexivity. Qed.

(** C8: when the properties of the first feature have none of the names of
    the list, the inference finds nothing and the locator is
    [feature.properties.name]; folium receives that locator, the document
    as it was read, and the cells of the country column as they are: the
    pipeline rewrites no key (no case folding, no alias, no fuzzy match), so
    a key can only be compared as the string it is. *)
Theorem name_fallback_verbatim (mdf : DataFrame) (m fm props : gmap string json)
    (rest : list json) (migration_country_field migration_value_field : option string)
    (country value : string) (i j : nat) :
  m !! "features" = Some (JArr (JObj fm :: rest)) →
  default (JObj ∅) (fm !! "properties") = JObj props →
  Forall (λ f, props !! f = None) id_names →
  infer_country_field mdf migration_country_field = Some country →
  infer_value_field mdf migration_value_field = Some value →
  get_loc mdf country = Some i →
  get_loc mdf value = Some j →
  infer_id_field (JObj m) None = Return None ∧
  generate_choropleth mdf (JObj m) None migration_country_field migration_value_field
  = Return {| geo_data := JObj m;
              data := {| columns := ["country_key"; "value"];
                         rows := (λ row, [iloc i row; iloc j row]) <$> rows mdf |};
              key_on := "feature.properties.name" |}.
Proof.
  intros Hm Hfm Hnone Hc Hv Hi Hj.
  assert (infer_id_field (JObj m) None = Return None) as Hid.
  { rewrite (infer_id_field_first m fm props rest Hm Hfm). f_equal.
    apply next_None. eapply Forall_impl; [exact Hnone|].
    intros f Hf. simpl. rewrite Hf. by apply bool_decide_eq_false_2, is_Some_None. }
  split; [done|].
  by rewrite (generate_choropleth_Return mdf (JObj m) None _ _ country value i j None).
Qed.

Lemma name_fallback_verbatim_witness :
  let mdf := {| columns := ["Country"; "Year"; "Immigrants"];
                rows := [[Some (Text "Germany"); Some (Num 1980); Some (Num 7)];
                         [Some (Text "germany"); Some (Num 1980); None]] |} in
  let props : gmap string json := list_to_map [("pop", JNum 123)] in
  let fm : gmap string json := list_to_map [("properties", JObj props)] in
  let m : gmap string json := list_to_map [("features", JArr [JObj fm])] in
  infer_id_field (JObj m) None = Return None ∧
  generate_choropleth mdf (JObj m) None None None
  = Return {| geo_data := JObj m;
              data := {| columns := ["country_key"; "value"];
                         rows := [[Some (Text "Germany"); Some (Num 7)];
                                  [Some (Text "germany"); None]] |};
              key_on := "feature.properties.name" |}.
Proof.
  intros mdf props fm m.
  apply (name_fallback_verbatim mdf m fm props [] None None "Country" "Immigrants" 0%nat 2%nat);
    try reflexivity.
  apply (bool_decide_unpack _). vm_compute. exact I.
Defined.

(** ** Overrides *)

(** C10: an override that is the empty string is falsy, so the header is
    scanned as if no override had been given, the pipeline does what it does
    without the override, and the column taken is never the empty name. *)
Theorem empty_override_ignored (mdf : DataFrame) (gj : json)
    (geojson_id_field country value : option string) :
  infer_country_field mdf (Some EmptyString)
  = next_ (λ c, bool_decide (lower c ∈ country_names)) (columns mdf) ∧
  infer_value_field mdf (Some EmptyString)
  = next_ (λ c, bool_decide (lower c ∈ value_names)) (columns mdf) ∧
  infer_country_field mdf (Some EmptyString) = infer_country_field mdf None ∧
  infer_value_field mdf (Some EmptyString) = infer_value_field mdf None ∧
  generate_choropleth mdf gj geojson_id_field (Some EmptyString) value
  = generate_choropleth mdf gj geojson_id_field None value ∧
  generate_choropleth mdf gj geojson_id_field country (Some EmptyString)
  = generate_choropleth mdf gj geojson_id_field country None ∧
  infer_country_field mdf (Some EmptyString) ≠ Some EmptyString ∧
  infer_value_field mdf (Some EmptyString) ≠ Some EmptyString.
Proof.
  repeat split; try reflexivity.
  - intros Hc. by apply (scanned_nonempty _ _ _ country_names_nonempty Hc).
  - intros Hv. by apply (scanned_nonempty _ _ _ value_names_nonempty Hv).
Qed.

(** A truthy override, by contrast, is taken unchecked. *)
Lemma truthy_override_wins (mdf : DataFrame) (s : string) :
  s ≠ EmptyString →
  infer_country_field mdf (Some s) = Some s ∧ infer_value_field mdf (Some s) = Some s.
Proof. intros Hs. split; by apply or_truthy. Qed.

(** ** The geometry document outside its expected shape *)

(** What the inference does when the document is not a collection of
    features with property mappings: the exception of the first statement
    that fails. *)
Lemma infer_id_field_malformed :
  let doc (first : list (string * json)) : json :=
    JObj (list_to_map [("features", JArr [JObj (list_to_map first)])]) in
  infer_id_field (JObj (list_to_map [("features", JArr [])])) None = Raise IndexError ∧
  infer_id_field (JArr []) None = Raise TypeError ∧
  infer_id_field (JObj (list_to_map [("features", JArr [JNull])])) None
  = Raise AttributeError ∧
  infer_id_field (doc [("properties", JNull)]) None = Raise TypeError ∧
  infer_id_field (doc [("geometry", JNull)]) None = Return None ∧
  infer_id_field (doc [("properties", JStr "grid")]) None = Return (Some "id") ∧
  infer_id_field (doc [("properties", JArr [JStr "ISO3"])]) None = Return (Some "ISO3").
Proof. by repeat split. Qed.

(** A property name from the caller is taken as it is, the empty one
    excepted, which gives the locator of the names. *)
Lemma caller_id_field_unchecked (gj : json) (f : string) :
  infer_id_field gj (Some f) = Return (Some f) ∧
  locator (Some f)
  = (if bool_decide (f = EmptyString) then "feature.properties.name"
     else "feature.properties." +:+ f).
Proof. done. Qed.

(** * The rest of the two pipelines *)

(** ** Sequencing *)

Lemma bind_Return {A B} (a : A) (k : A → result B) : (Return a ≫= k) = k a.
Proof. reflexivity. Qed.

Lemma bind_Raise {A B} (e : exn) (k : A → result B) : (Raise e ≫= k) = Raise e.
Proof. reflexivity. Qed.

Lemma bind_Return_inv {A B} (r : result A) (k : A → result B) (b : B) :
  (r ≫= k) = Return b → ∃ a, r = Return a ∧ k a = Return b.
Proof. destruct r as [a|e]; [by exists a|discriminate]. Qed.

(** ** Frames *)

Lemma get_loc_columns (df1 df2 : DataFrame) (c : string) :
  columns df1 = columns df2 → get_loc df1 c = get_loc df2 c.
Proof. unfold get_loc. by intros ->. Qed.

Lemma get_loc_None (df : DataFrame) (c : string) :
  c ∉ columns df → get_loc df c = None.
Proof.
  intros Hc. unfold get_loc.
  destruct (list_find (λ x, x = c) (columns df)) as [[i x]|] eqn:Hf; [|done].
  apply list_find_Some in Hf as (Hi & -> & _).
  destruct Hc. by eapply list_elem_of_lookup_2.
Qed.

Lemma filter_sublist {A} (f : A → bool) (l : list A) : sublist (List.filter f l) l.
Proof.
  induction l as [|x l IH]; simpl; [constructor|].
  destruct (f x); by constructor.
Qed.

Lemma notna_at_pair (i j : nat) (row : list cell) :
  notna_at [i; j] row = true ↔ is_Some (iloc i row) ∧ is_Some (iloc j row).
Proof.
  unfold notna_at. simpl. rewrite andb_true_r, andb_true_iff.
  by rewrite !bool_decide_eq_true.
Qed.

Lemma omap_lookup_length {A} (l : list A) (drawn : list nat) :
  Forall (λ i, (i < length l)%nat) drawn →
  length (omap (λ i, l !! i) drawn) = length drawn.
Proof.
  induction 1 as [|i drawn Hi _ IH]; [done|].
  destruct (lookup_lt_is_Some_2 l i Hi) as [x Hx].
  change (omap (λ i, l !! i) (i :: drawn))
    with (match l !! i with
          | Some y => y :: omap (λ i, l !! i) drawn
          | None => omap (λ i, l !! i) drawn
          end).
  rewrite Hx. simpl. by f_equal.
Qed.

Lemma omap_lookup_elem {A} (l : list A) (drawn : list nat) :
  Forall (λ x, x ∈ l) (omap (λ i, l !! i) drawn).
Proof.
  apply Forall_forall. intros x (i & _ & Hx)%list_elem_of_omap.
  by eapply list_elem_of_lookup_2.
Qed.

(** The sampling step never changes the header and never invents a row. *)
Lemma limit_points_inv `{Library} (np_random : rng) (df sampled : DataFrame)
    (max_points : Z) :
  limit_points np_random df max_points = Return sampled →
  columns sampled = columns df ∧ Forall (λ row, row ∈ rows df) (rows sampled).
Proof.
  unfold limit_points, sample.
  destruct (len df >? max_points).
  - destruct (max_points <? 0); [discriminate|].
    destruct (len df <? max_points); [discriminate|].
    intros [= <-]. split; [done|]. apply omap_lookup_elem.
  - intros [= <-]. split; [done|]. by apply Forall_forall.
Qed.

(** ** The point pipeline past the schema check *)

Lemma candidates_category_nonempty : Forall (λ n, n ≠ EmptyString) candidates_category.
Proof. apply (bool_decide_unpack _); vm_compute; exact I. Qed.

(** Every marker is built without an exception: the three columns that it
    reads are columns of the frame. *)
Lemma circle_marker_Return (df : DataFrame) (lat_col lon_col : string) (i j : nat)
    (row : list cell) :
  get_loc df lat_col = Some i → get_loc df lon_col = Some j →
  circle_marker df lat_col lon_col
    (next_ (λ c, bool_decide (c ∈ columns df)) candidates_category) row
  = Return (marker_of i j (category_loc df) row).
Proof.
  intros Hi Hj. unfold circle_marker, row_getitem, category_loc, marker_of.
  rewrite Hi, Hj.
  destruct (next_ (λ c, bool_decide (c ∈ columns df)) candidates_category)
    as [c|] eqn:Hcat; [|done].
  apply next_elem in Hcat as [Hc Hin%bool_decide_eq_true].
  pose proof candidates_category_nonempty as Hne. rewrite Forall_forall in Hne.
  destruct (get_loc_elem df c Hin) as [k Hk].
  simpl. rewrite (bool_decide_eq_false_2 _ (Hne c Hc)), Hk. done.
Qed.

Lemma mapM_Return {A B} (f : A → result B) (g : A → B) (l : list A) :
  (∀ x, f x = Return (g x)) → mapM f l = Return (g <$> l).
Proof.
  intros Hf. induction l as [|x l IH]; [done|].
  simpl. rewrite Hf, IH. done.
Qed.

(** The pipeline once both coordinate columns are found: filter, sample,
    centre, markers. *)
Lemma generate_sf_cluster_map_resolved `{Library} (np_random : rng) (df : DataFrame)
    (max_points : Z) (lat_col lon_col : string) (i j : nat) :
  find_lat_lon_columns df = (Some lat_col, Some lon_col) →
  get_loc df lat_col = Some i → get_loc df lon_col = Some j →
  generate_sf_cluster_map np_random df max_points
  = (sampled ← limit_points np_random
                  {| columns := columns df; rows := complete_rows i j df |} max_points;
     center_lat ← median (iloc i <$> rows sampled);
     center_lon ← median (iloc j <$> rows sampled);
     Return {| map_location := (center_lat, center_lon);
               markers := marker_of i j (category_loc df) <$> rows sampled |}).
Proof.
  intros Hfind Hi Hj.
  destruct (find_lat_lon_columns_elem _ _ _ Hfind) as (Hlat & Hlon & _ & _).
  pose proof names_nonempty as Hne. rewrite Forall_forall in Hne.
  assert (lat_col ≠ EmptyString) as Hlat0 by (apply Hne, elem_of_app; by left).
  assert (lon_col ≠ EmptyString) as Hlon0
    by (apply Hne, elem_of_app; right; apply elem_of_app; by left).
  unfold generate_sf_cluster_map. rewrite Hfind.
  unfold not_. rewrite !bool_decide_eq_false_2 by done.
  change (false || false) with false. cbv iota.
  unfold dropna, get_locs. rewrite Hi, Hj. rewrite !bind_Return.
  fold (complete_rows i j df).
  destruct (limit_points np_random
              {| columns := columns df; rows := complete_rows i j df |} max_points)
    as [sampled|e] eqn:Hlim; [|done].
  rewrite !bind_Return.
  apply limit_points_inv in Hlim as [Hcols _]. simpl in Hcols.
  assert (get_loc sampled lat_col = Some i) as Hi'
    by (by rewrite (get_loc_columns sampled df)).
  assert (get_loc sampled lon_col = Some j) as Hj'
    by (by rewrite (get_loc_columns sampled df)).
  unfold getitem. rewrite Hi', Hj'. rewrite !bind_Return.
  destruct (median (iloc i <$> rows sampled)) as [center_lat|e]; [|done].
  rewrite !bind_Return.
  destruct (median (iloc j <$> rows sampled)) as [center_lon|e]; [|done].
  rewrite !bind_Return.
  rewrite (mapM_Return _ (marker_of i j (category_loc sampled))).
  - rewrite bind_Return. unfold category_loc. rewrite Hcols.
    do 4 f_equal. destruct (next_ _ candidates_category) as [c|]; [|done].
    simpl. by apply get_loc_columns.
  - intros row. by apply circle_marker_Return.
Qed.

Lemma resolved_locs (df : DataFrame) (lat_col lon_col : string) :
  find_lat_lon_columns df = (Some lat_col, Some lon_col) →
  ∃ i j, get_loc df lat_col = Some i ∧ get_loc df lon_col = Some j.
Proof.
  intros (_ & _ & [i Hi]%get_loc_elem & [j Hj]%get_loc_elem)%find_lat_lon_columns_elem.
  by exists i, j.
Qed.

(** A map is returned only past the schema check. *)
Lemma generate_sf_cluster_map_Return_inv `{Library} (np_random : rng) (df : DataFrame)
    (max_points : Z) (m : ClusterMap) :
  generate_sf_cluster_map np_random df max_points = Return m →
  ∃ lat_col lon_col, find_lat_lon_columns df = (Some lat_col, Some lon_col).
Proof.
  unfold generate_sf_cluster_map.
  destruct (find_lat_lon_columns df) as [[lat_col|] [lon_col|]]; simpl;
    try discriminate; try (destruct (bool_decide _); discriminate).
  intros _. by exists lat_col, lon_col.
Qed.

(** X1: once both coordinate columns are found, the filtering of line 57
    succeeds, keeps the header, and keeps exactly the rows in which both
    coordinates are present, in the order of the frame. *)
Theorem filtering_keeps_complete_rows (df : DataFrame) (lat_col lon_col : string) :
  find_lat_lon_columns df = (Some lat_col, Some lon_col) →
  ∃ i j, get_loc df lat_col = Some i ∧ get_loc df lon_col = Some j ∧
         dropna df [lat_col; lon_col]
         = Return {| columns := columns df; rows := complete_rows i j df |} ∧
         sublist (complete_rows i j df) (rows df) ∧
         ∀ row, row ∈ complete_rows i j df
                ↔ row ∈ rows df ∧ is_Some (iloc i row) ∧ is_Some (iloc j row).
Proof.
  intros Hfind. destruct (resolved_locs df lat_col lon_col Hfind) as (i & j & Hi & Hj).
  exists i, j. split; [done|]. split; [done|]. split; [|split].
  - unfold dropna, get_locs. by rewrite Hi, Hj.
  - apply filter_sublist.
  - intros row. unfold complete_rows.
    rewrite list_elem_of_In, filter_In, notna_at_pair, <- list_elem_of_In. tauto.
Qed.

Lemma filtering_keeps_complete_rows_witness :
  let df := {| columns := ["offense"; "y"; "x"];
               rows := [[Some (Text "theft"); Some (Num 1); Some (Num 2)];
                        [None; None; Some (Num 4)];
                        [None; Some (Num 5); Some (Num 6)];
                        [Some (Text "fraud"); Some (Num 7)]] |} in
  ∃ i j, get_loc df "y" = Some i ∧ get_loc df "x" = Some j ∧
         dropna df ["y"; "x"]
         = Return {| columns := columns df; rows := complete_rows i j df |} ∧
         sublist (complete_rows i j df) (rows df) ∧
         ∀ row, row ∈ complete_rows i j df
                ↔ row ∈ rows df ∧ is_Some (iloc i row) ∧ is_Some (iloc j row).
Proof.
  intros df. apply (filtering_keeps_complete_rows df "y" "x"). reflexivity.
Defined.

(** X2: when the complete rows are at most [max_points] and the two
    medians exist, the pipeline returns the map centred on the medians of
    the complete rows, with one marker for each complete row, in the order
    of the frame, at the coordinates of the row. *)
Theorem cluster_map_below_cap `{Library} (np_random : rng) (df : DataFrame)
    (max_points : Z) (lat_col lon_col : string) (i j : nat) (center_lat center_lon : cell) :
  find_lat_lon_columns df = (Some lat_col, Some lon_col) →
  get_loc df lat_col = Some i → get_loc df lon_col = Some j →
  Z.of_nat (length (complete_rows i j df)) ≤ max_points →
  median (iloc i <$> complete_rows i j df) = Return center_lat →
  median (iloc j <$> complete_rows i j df) = Return center_lon →
  generate_sf_cluster_map np_random df max_points
  = Return {| map_location := (center_lat, center_lon);
              markers := marker_of i j (category_loc df) <$> complete_rows i j df |}.
Proof.
  intros Hfind Hi Hj Hle Hlat Hlon.
  rewrite (generate_sf_cluster_map_resolved np_random df max_points _ _ i j Hfind Hi Hj).
  rewrite limit_points_le by done. rewrite bind_Return. simpl.
  rewrite Hlat, bind_Return, Hlon. done.
Qed.

Lemma cluster_map_below_cap_witness :
  let df := {| columns := ["offense"; "y"; "x"];
               rows := [[Some (Text "theft"); Some (Num 1); Some (Num 2)];
                        [None; None; Some (Num 4)];
                        [None; Some (Num 5); Some (Num 6)]] |} in
  @generate_sf_cluster_map window 0%nat df 2
  = Return {| map_location := (Some (Num (Qdiv (Qplus 1 5) (2 # 1))),
                               Some (Num (Qdiv (Qplus 2 6) (2 # 1))));
              markers := marker_of 1 2 (category_loc df) <$> complete_rows 1 2 df |}.
Proof.
  intros df.
  apply (@cluster_map_below_cap window 0%nat df 2 "y" "x" 1%nat 2%nat);
    reflexivity.
Defined.

Lemma markers_have_coordinates_aux `{Library} (np_random : rng) (df : DataFrame)
    (max_points : Z) (m : ClusterMap) :
  generate_sf_cluster_map np_random df max_points = Return m →
  ∃ i j, Forall (λ mk, ∃ row, row ∈ rows df ∧
                       mk = marker_of i j (category_loc df) row ∧
                       is_Some (marker_location mk).1 ∧
                       is_Some (marker_location mk).2) (markers m).
Proof.
  intros Hm.
  destruct (generate_sf_cluster_map_Return_inv _ _ _ _ Hm) as (lat_col & lon_col & Hfind).
  destruct (resolved_locs df lat_col lon_col Hfind) as (i & j & Hi & Hj).
  rewrite (generate_sf_cluster_map_resolved np_random df max_points _ _ i j Hfind Hi Hj)
    in Hm.
  apply bind_Return_inv in Hm as (sampled & Hlim & Hm).
  apply bind_Return_inv in Hm as (center_lat & _ & Hm).
  apply bind_Return_inv in Hm as (center_lon & _ & [= <-]).
  apply limit_points_inv in Hlim as [_ Hrows]. simpl in Hrows.
  exists i, j. simpl. apply Forall_fmap. eapply Forall_impl; [exact Hrows|].
  intros row [Hrow [Hi' Hj']%notna_at_pair]%list_elem_of_In%filter_In. simpl.
  exists row. split; [by apply list_elem_of_In|done].
Qed.

(** X3: every marker of a returned map has both coordinates present and is
    the marker of a row of the frame, whatever the draw. *)
Theorem markers_have_coordinates `{Library} (np_random : rng) (df : DataFrame)
    (max_points : Z) (m : ClusterMap) :
  generate_sf_cluster_map np_random df max_points = Return m →
  ∃ i j, Forall (λ mk, ∃ row, row ∈ rows df ∧
                       mk = marker_of i j (category_loc df) row ∧
                       is_Some (marker_location mk).1 ∧
                       is_Some (marker_location mk).2) (markers m).
Proof. apply markers_have_coordinates_aux. Qed.

Lemma markers_have_coordinates_witness :
  let df := {| columns := ["lat"; "lng"];
               rows := [[Some (Num 1); Some (Num 2)]; [None; Some (Num 4)];
                        [Some (Num 5); Some (Num 6)]; [Some (Num 7); Some (Num 8)]] |} in
  ∃ i j, Forall (λ mk, ∃ row, row ∈ rows df ∧
                       mk = marker_of i j (category_loc df) row ∧
                       is_Some (marker_location mk).1 ∧
                       is_Some (marker_location mk).2)
                [{| marker_location := (Some (Num 5), Some (Num 6)); popup := None |};
                 {| marker_location := (Some (Num 7), Some (Num 8)); popup := None |}].
Proof.
  intros df.
  apply (@markers_have_coordinates window 0%nat df 2
           {| map_location := (Some (Num (Qdiv (Qplus 5 7) (2 # 1))),
                               Some (Num (Qdiv (Qplus 6 8) (2 # 1))));
              markers := [{| marker_location := (Some (Num 5), Some (Num 6)); popup := None |};
                          {| marker_location := (Some (Num 7), Some (Num 8)); popup := None |}] |}).
  reflexivity.
Defined.

(** X4: above the cap, when the seeded draw yields [max_points] positions
    of the frame (as a draw without replacement does), the sampling step
    keeps exactly [max_points] rows, all of them rows of the frame, under
    the same header. *)
Theorem sampling_above_cap_count `{Library} (np_random : rng) (df : DataFrame)
    (max_points : Z) :
  0 ≤ max_points < len df →
  length (choice (RandomState 1) (length (rows df)) (Z.to_nat max_points))
  = Z.to_nat max_points →
  Forall (λ i, (i < length (rows df))%nat)
         (choice (RandomState 1) (length (rows df)) (Z.to_nat max_points)) →
  ∃ sampled, limit_points np_random df max_points = Return sampled ∧
             columns sampled = columns df ∧
             len sampled = max_points ∧
             Forall (λ row, row ∈ rows df) (rows sampled).
Proof.
  intros Hmax Hlen Hpos. eexists. split; [by apply sampling_above_cap|].
  split; [done|]. split.
  - unfold len. simpl. rewrite omap_lookup_length by done. rewrite Hlen. lia.
  - apply omap_lookup_elem.
Qed.

Lemma sampling_above_cap_count_witness :
  let df := {| columns := ["lat"; "lon"];
               rows := [[Some (Num 1); Some (Num 2)]; [Some (Num 3); Some (Num 4)];
                        [Some (Num 5); Some (Num 6)]] |} in
  ∃ sampled, @limit_points window 0%nat df 2 = Return sampled ∧
             columns sampled = columns df ∧
             len sampled = 2 ∧
             Forall (λ row, row ∈ rows df) (rows sampled).
Proof.
  intros df. apply (@sampling_above_cap_count window 0%nat df 2).
  - vm_compute. split; [discriminate|reflexivity].
  - reflexivity.
  - apply (bool_decide_unpack _). vm_compute. exact I.
Defined.

(** X5: a negative [max_points] makes the pipeline fail whenever the two
    coordinate columns are found, even on a frame without rows: the test of
    line 59 holds and [sample] refuses the negative size. *)
Theorem negative_cap_raises `{Library} (np_random : rng) (df : DataFrame)
    (max_points : Z) (lat_col lon_col : string) :
  find_lat_lon_columns df = (Some lat_col, Some lon_col) →
  max_points < 0 →
  generate_sf_cluster_map np_random df max_points
  = Raise (ValueError "A negative number of rows requested. Please provide `n` >= 0.").
Proof.
  intros Hfind Hneg.
  destruct (resolved_locs df lat_col lon_col Hfind) as (i & j & Hi & Hj).
  rewrite (generate_sf_cluster_map_resolved np_random df max_points _ _ i j Hfind Hi Hj).
  unfold limit_points, sample.
  destruct (Z.gtb_spec (len {| columns := columns df; rows := complete_rows i j df |})
              max_points) as [_|Hle]; [|unfold len in Hle; lia].
  destruct (Z.ltb_spec max_points 0); [done|lia].
Qed.

Lemma negative_cap_raises_witness :
  @generate_sf_cluster_map window 0%nat {| columns := ["LAT"; "LON"]; rows := [] |} (-1)
  = Raise (ValueError "A negative number of rows requested. Please provide `n` >= 0.").
Proof.
  apply (@negative_cap_raises window 0%nat _ (-1) "LAT" "LON"); reflexivity.
Defined.

(** X6: in a returned map either every marker has a pop-up or none has:
    a marker has one exactly when the header has one of [category],
    [Category], [crime_type], [offense]; a row whose category is missing
    still gets a pop-up, of the missing value. *)
Theorem popup_iff_category_column `{Library} (np_random : rng) (df : DataFrame)
    (max_points : Z) (m : ClusterMap) :
  generate_sf_cluster_map np_random df max_points = Return m →
  Forall (λ mk, is_Some (popup mk)
                ↔ Exists (λ c, c ∈ columns df) candidates_category) (markers m).
Proof.
  intros Hm. destruct (markers_have_coordinates_aux np_random df max_points m Hm)
    as (i & j & Hmk).
  eapply Forall_impl; [exact Hmk|]. intros mk (row & _ & -> & _). simpl.
  unfold category_loc.
  destruct (next_ (λ c, bool_decide (c ∈ columns df)) candidates_category)
    as [c|] eqn:Hcat.
  - pose proof Hcat as [Hc Hin%bool_decide_eq_true]%next_elem.
    destruct (get_loc_elem df c Hin) as [k Hk]. simpl. rewrite Hk. simpl.
    split; [|by eexists]. intros _. apply Exists_exists. by exists c.
  - simpl. split; [by intros [? ?]|].
    intros (c & Hc & Hin)%Exists_exists. apply next_None in Hcat.
    rewrite Forall_forall in Hcat. specialize (Hcat c Hc).
    by apply bool_decide_eq_false in Hcat.
Qed.

Lemma popup_iff_category_column_witness :
  let df := {| columns := ["lat"; "lng"; "Category"];
               rows := [[Some (Num 1); Some (Num 2); None];
                        [Some (Num 5); Some (Num 6); Some (Text "theft")]] |} in
  Forall (λ mk, is_Some (popup mk)
                ↔ Exists (λ c, c ∈ columns df) candidates_category)
         [{| marker_location := (Some (Num 1), Some (Num 2)); popup := Some None |};
          {| marker_location := (Some (Num 5), Some (Num 6));
             popup := Some (Some (Text "theft")) |}].
Proof.
  intros df.
  apply (@popup_iff_category_column window 0%nat df 2
           {| map_location := (Some (Num (Qdiv (Qplus 1 5) (2 # 1))),
                               Some (Num (Qdiv (Qplus 2 6) (2 # 1))));
              markers := [{| marker_location := (Some (Num 1), Some (Num 2));
                             popup := Some None |};
                          {| marker_location := (Some (Num 5), Some (Num 6));
                             popup := Some (Some (Text "theft")) |}] |}).
  reflexivity.
Defined.

(** ** The join pipeline past the schema check *)

Lemma next_in_Raise (fs : list string) (j : json) (e : exn) :
  next_in fs j = Raise e → e = TypeError.
Proof.
  induction fs as [|f fs IH]; [discriminate|].
  destruct j; simpl; try (by intros [= <-]);
    match goal with |- context [if ?b then _ else _] => destruct b end;
    try discriminate; exact IH.
Qed.

(** The exceptions of the inference of lines 108-111. *)
Lemma infer_id_field_Raise (gj : json) (geojson_id_field : option string) (e : exn) :
  infer_id_field gj geojson_id_field = Raise e →
  geojson_id_field = None ∧
  (e = KeyError (JStr "features") ∨ e = KeyError (JNum 0) ∨ e = IndexError ∨
   e = TypeError ∨ e = AttributeError).
Proof.
  destruct geojson_id_field as [f|]; [discriminate|]. intros He. split; [done|].
  unfold infer_id_field, getitem_str in He.
  destruct gj as [| | | | |m]; try (injection He as <-; tauto).
  destruct (m !! "features") as [features|]; [|injection He as <-; tauto].
  rewrite bind_Return in He.
  destruct features as [| | |s|[|first l]|]; try (injection He as <-; tauto).
  - destruct s; injection He as <-; tauto.
  - destruct first as [| | | | |fm]; try (injection He as <-; tauto).
    change (next_in id_names (default (JObj ∅) (fm !! "properties")) = Raise e) in He.
    apply next_in_Raise in He. tauto.
Qed.

Lemma project_Raise (df : DataFrame) (a b : string) (names : list string) (e : exn) :
  project df [a; b] names = Raise e → e = KeyError (JStr a) ∨ e = KeyError (JStr b).
Proof.
  unfold project, get_locs.
  destruct (get_loc df a); [|intros [= <-]; by left].
  destruct (get_loc df b); [discriminate|intros [= <-]; by right].
Qed.

Lemma generate_choropleth_resolved (mdf : DataFrame) (gj : json)
    (geojson_id_field migration_country_field migration_value_field : option string)
    (country value : string) :
  infer_country_field mdf migration_country_field = Some country →
  infer_value_field mdf migration_value_field = Some value →
  generate_choropleth mdf gj geojson_id_field migration_country_field migration_value_field
  = (id ← infer_id_field gj geojson_id_field;
     choro_df ← project mdf [country; value] ["country_key"; "value"];
     Return {| geo_data := gj; data := choro_df; key_on := locator id |}).
Proof. intros Hc Hv. unfold generate_choropleth. by rewrite Hc, Hv. Qed.

Lemma locator_form (id : option string) :
  ∃ name, name ≠ EmptyString ∧ locator id = "feature.properties." +:+ name.
Proof.
  destruct id as [f|]; [|by exists "name"]. unfold locator, not_.
  destruct (decide (f = EmptyString)) as [->|Hf].
  - by exists "name".
  - rewrite bool_decide_eq_false_2 by done. by exists f.
Qed.

(** X7: the error of the schema check and nothing else.  The statements of
    lines 95-125 raise [ValueError] with the message of line 99 exactly when
    one of the two columns is unresolved; once both are resolved, whatever
    these statements raise before the call of [folium.Choropleth] is a
    [KeyError], an [IndexError], a [TypeError] or an [AttributeError]. *)
Theorem schema_error_iff_unresolved (mdf : DataFrame) (gj : json)
    (geojson_id_field migration_country_field migration_value_field : option string) :
  (generate_choropleth mdf gj geojson_id_field migration_country_field migration_value_field
   = Raise (ValueError migration_columns_not_found)
   ↔ infer_country_field mdf migration_country_field = None
     ∨ infer_value_field mdf migration_value_field = None) ∧
  (∀ e, is_Some (infer_country_field mdf migration_country_field) →
        is_Some (infer_value_field mdf migration_value_field) →
        generate_choropleth mdf gj geojson_id_field
          migration_country_field migration_value_field = Raise e →
        (∃ key, e = KeyError key) ∨ e = IndexError ∨ e = TypeError ∨ e = AttributeError).
Proof.
  assert (∀ e country value,
            infer_country_field mdf migration_country_field = Some country →
            infer_value_field mdf migration_value_field = Some value →
            generate_choropleth mdf gj geojson_id_field
              migration_country_field migration_value_field = Raise e →
            (∃ key, e = KeyError key) ∨ e = IndexError ∨ e = TypeError
            ∨ e = AttributeError) as Hclass.
  { intros e country value Hc Hv He.
    rewrite (generate_choropleth_resolved _ _ _ _ _ _ _ Hc Hv) in He.
    destruct (infer_id_field gj geojson_id_field) as [id|e'] eqn:Hid.
    - rewrite bind_Return in He.
      destruct (project mdf [country; value] ["country_key"; "value"]) as [d|e'] eqn:Hp;
        [discriminate|].
      injection He as ->. left. destruct (project_Raise _ _ _ _ _ Hp) as [->| ->]; by eexists.
    - injection He as ->.
      destruct (infer_id_field_Raise _ _ _ Hid) as [_ [->|[->|[->|[->| ->]]]]];
        eauto. }
  split; [split|].
  - intros He.
    destruct (infer_country_field mdf migration_country_field) as [country|] eqn:Hc;
      [|by left].
    destruct (infer_value_field mdf migration_value_field) as [value|] eqn:Hv;
      [|by right].
    destruct (Hclass _ _ _ eq_refl eq_refl He) as [[key ?]|[?|[?|?]]]; discriminate.
  - intros Hnone. unfold generate_choropleth.
    destruct Hnone as [->| ->]; [done|].
    by destruct (infer_country_field mdf migration_country_field).
  - intros e [country Hc] [value Hv]. by apply (Hclass e country value).
Qed.

Lemma schema_error_iff_unresolved_witness :
  let mdf := {| columns := ["Country"; "Value"]; rows := [] |} in
  let gj := JObj (list_to_map [("features", JObj ∅)]) in
  (∃ key, KeyError (JNum 0) = KeyError key) ∨ KeyError (JNum 0) = IndexError
  ∨ KeyError (JNum 0) = TypeError ∨ KeyError (JNum 0) = AttributeError.
Proof.
  intros mdf gj.
  destruct (schema_error_iff_unresolved mdf gj None None None) as [_ Hclass].
  apply Hclass; [by eexists|by eexists|reflexivity].
Defined.

(** X8: with a property name given by the caller, lines 107-120 do not read
    the geometry document.  Whatever [json.load] returned, the script
    reaches the call of [folium.Choropleth] with that document as it is, the
    projection of the two columns, and the locator of the given name (of
    [name] when the given name is empty); the script itself never checks
    that the features have the property. *)
Theorem caller_id_field_skips_geometry (mdf : DataFrame) (gj : json) (f : string)
    (migration_country_field migration_value_field : option string)
    (country value : string) (i j : nat) :
  infer_country_field mdf migration_country_field = Some country →
  infer_value_field mdf migration_value_field = Some value →
  get_loc mdf country = Some i →
  get_loc mdf value = Some j →
  generate_choropleth mdf gj (Some f) migration_country_field migration_value_field
  = Return {| geo_data := gj;
              data := {| columns := ["country_key"; "value"];
                         rows := (λ row, [iloc i row; iloc j row]) <$> rows mdf |};
              key_on := if bool_decide (f = EmptyString) then "feature.properties.name"
                        else "feature.properties." +:+ f |}.
Proof.
  intros Hc Hv Hi Hj.
  by rewrite (generate_choropleth_Return mdf gj (Some f) _ _ country value i j (Some f)).
Qed.

Lemma caller_id_field_skips_geometry_witness :
  let mdf := {| columns := ["Country"; "Value"];
                rows := [[Some (Text "DEU"); Some (Num 7)]] |} in
  let feature : gmap string json :=
    list_to_map [("type", JStr "Feature");
                 ("properties", JObj (list_to_map [("iso_a3", JStr "DEU")]));
                 ("geometry",
                  JObj (list_to_map [("type", JStr "Point");
                                     ("coordinates", JArr [JNum 10; JNum 51])]))] in
  let gj := JObj (list_to_map [("type", JStr "FeatureCollection");
                               ("features", JArr [JObj feature])]) in
  generate_choropleth mdf gj (Some "iso_a3") None None
  = Return {| geo_data := gj;
              data := {| columns := ["country_key"; "value"];
                         rows := [[Some (Text "DEU"); Some (Num 7)]] |};
              key_on := "feature.properties.iso_a3" |}.
Proof.
  intros mdf feature gj.
  apply (caller_id_field_skips_geometry mdf gj "iso_a3" None None
           "Country" "Value" 0%nat 1%nat); reflexivity.
Defined.

(** X9: an override that is not a column of the frame is not noticed when
    it is given: the geometry is inferred first, and the pipeline fails
    with [KeyError] only at the projection of line 124. *)
Theorem override_not_in_header_KeyError (mdf : DataFrame) (gj : json)
    (geojson_id_field other : option string) (s : string) (id : option string) :
  s ≠ EmptyString → s ∉ columns mdf →
  infer_id_field gj geojson_id_field = Return id →
  (is_Some (infer_value_field mdf other) →
   ∃ key, generate_choropleth mdf gj geojson_id_field (Some s) other
          = Raise (KeyError key)) ∧
  (is_Some (infer_country_field mdf other) →
   ∃ key, generate_choropleth mdf gj geojson_id_field other (Some s)
          = Raise (KeyError key)).
Proof.
  intros Hs Hnotin Hid. apply get_loc_None in Hnotin. split.
  - intros [value Hv].
    rewrite (generate_choropleth_resolved _ _ _ _ _ s value (or_truthy Hs) Hv).
    rewrite Hid, bind_Return. unfold project, get_locs. rewrite Hnotin. by eexists.
  - intros [country Hc].
    rewrite (generate_choropleth_resolved _ _ _ _ _ country s Hc (or_truthy Hs)).
    rewrite Hid, bind_Return. unfold project, get_locs. rewrite Hnotin.
    destruct (get_loc mdf country); by eexists.
Qed.

Lemma override_not_in_header_KeyError_witness :
  let mdf := {| columns := ["Country"; "Value"]; rows := [] |} in
  (∃ key, generate_choropleth mdf JNull (Some "iso_a3") (Some "nation") None
          = Raise (KeyError key)) ∧
  (∃ key, generate_choropleth mdf JNull (Some "iso_a3") None (Some "nation")
          = Raise (KeyError key)).
Proof.
  intros mdf.
  destruct (override_not_in_header_KeyError mdf JNull (Some "iso_a3") None "nation"
              (Some "iso_a3")) as [Hcountry Hvalue].
  - discriminate.
  - apply (bool_decide_unpack _). vm_compute. exact I.
  - reflexivity.
  - split; [apply Hcountry|apply Hvalue]; by eexists.
Defined.

(** X10: what a successful run hands to folium: the document as it was
    read, a frame of two columns named [country_key] and [value] with one
    row for each row of the input, in the same order, holding the two cells
    of that row (nothing merged, nothing dropped), and a locator
    [feature.properties.<name>] whose name is never empty. *)
Theorem choropleth_output_shape (mdf : DataFrame) (gj : json)
    (geojson_id_field migration_country_field migration_value_field : option string)
    (r : Choropleth) :
  generate_choropleth mdf gj geojson_id_field migration_country_field migration_value_field
  = Return r →
  geo_data r = gj ∧
  columns (data r) = ["country_key"; "value"] ∧
  (∃ country value i j,
     infer_country_field mdf migration_country_field = Some country ∧
     infer_value_field mdf migration_value_field = Some value ∧
     get_loc mdf country = Some i ∧ get_loc mdf value = Some j ∧
     rows (data r) = (λ row, [iloc i row; iloc j row]) <$> rows mdf) ∧
  length (rows (data r)) = length (rows mdf) ∧
  (∃ name, name ≠ EmptyString ∧ key_on r = "feature.properties." +:+ name).
Proof.
  intros Hr.
  destruct (infer_country_field mdf migration_country_field) as [country|] eqn:Hc;
    [|unfold generate_choropleth in Hr; by rewrite Hc in Hr].
  destruct (infer_value_field mdf migration_value_field) as [value|] eqn:Hv;
    [|unfold generate_choropleth in Hr; by rewrite Hc, Hv in Hr].
  rewrite (generate_choropleth_resolved _ _ _ _ _ _ _ Hc Hv) in Hr.
  apply bind_Return_inv in Hr as (id & Hid & Hr).
  unfold project, get_locs in Hr.
  destruct (get_loc mdf country) as [i|] eqn:Hi; [|discriminate].
  destruct (get_loc mdf value) as [j|] eqn:Hj; [|discriminate].
  injection Hr as <-. simpl. repeat split; try done.
  - by exists country, value, i, j.
  - by rewrite length_fmap.
  - apply locator_form.
Qed.

Lemma choropleth_output_shape_witness :
  let mdf := {| columns := ["Country"; "Year"; "Immigrants"];
                rows := [[Some (Text "India"); Some (Num 1980); Some (Num 8880)];
                         [Some (Text "India"); Some (Num 1981); None];
                         [None; Some (Num 1981); Some (Num 3)]] |} in
  let r := {| geo_data := JNull;
              data := {| columns := ["country_key"; "value"];
                         rows := [[Some (Text "India"); Some (Num 8880)];
                                  [Some (Text "India"); None];
                                  [None; Some (Num 3)]] |};
              key_on := "feature.properties.name" |} in
  geo_data r = JNull ∧
  columns (data r) = ["country_key"; "value"] ∧
  (∃ country value i j,
     infer_country_field mdf None = Some country ∧
     infer_value_field mdf None = Some value ∧
     get_loc mdf country = Some i ∧ get_loc mdf value = Some j ∧
     rows (data r) = (λ row, [iloc i row; iloc j row]) <$> rows mdf) ∧
  length (rows (data r)) = length (rows mdf) ∧
  (∃ name, name ≠ EmptyString ∧ key_on r = "feature.properties." +:+ name).
Proof.
  intros mdf r.
  apply (choropleth_output_shape mdf JNull (Some EmptyString) None None r). reflexivity.
Defined.

(** ** Letter case in the join resolver *)

Lemma lower_ascii_idemp (a : Ascii.ascii) : lower_ascii (lower_ascii a) = lower_ascii a.
Proof. destruct a as [[] [] [] [] [] [] [] []]; reflexivity. Qed.

Lemma lower_idemp (s : string) : lower (lower s) = lower s.
Proof. induction s as [|a s IH]; [done|]. simpl. by rewrite lower_ascii_idemp, IH. Qed.

Lemma next_fmap (p : string → bool) (f : string → string) (l : list string) :
  next_ p (f <$> l) = f <$> next_ (λ c, p (f c)) l.
Proof.
  unfold next_. induction l as [|x l IH]; [done|]. simpl.
  destruct (p (f x)); [done|]. exact IH.
Qed.

Lemma next_ext (p q : string → bool) (l : list string) :
  (∀ x, p x = q x) → next_ p l = next_ q l.
Proof.
  intros Hpq. unfold next_. induction l as [|x l IH]; [done|]. simpl.
  by rewrite Hpq, IH.
Qed.

(** X11: the scans of lines 95-96 ignore the case of the letters A-Z of the
    header: on the lower-cased header each role is resolved exactly when
    it is on the header itself, to the same column, lower-cased. *)
Theorem join_resolver_case_insensitive (header : list string)
    (rows1 rows2 : list (list cell)) :
  infer_country_field {| columns := lower <$> header; rows := rows1 |} None
  = lower <$> infer_country_field {| columns := header; rows := rows2 |} None ∧
  infer_value_field {| columns := lower <$> header; rows := rows1 |} None
  = lower <$> infer_value_field {| columns := header; rows := rows2 |} None.
Proof.
  unfold infer_country_field, infer_value_field, or_. simpl.
  rewrite !next_fmap. split; f_equal; apply next_ext; intros c; by rewrite lower_idemp.
Qed.

(** ** The feature list outside its expected shape *)

(** X12: a document whose feature list is empty makes the inference of the
    identifying property fail with [IndexError], at [gj['features'][0]]. *)
Theorem empty_feature_list_IndexError (mdf : DataFrame) (m : gmap string json)
    (migration_country_field migration_value_field : option string)
    (country value : string) :
  m !! "features" = Some (JArr []) →
  infer_country_field mdf migration_country_field = Some country →
  infer_value_field mdf migration_value_field = Some value →
  generate_choropleth mdf (JObj m) None migration_country_field migration_value_field
  = Raise IndexError.
Proof.
  intros Hm Hc Hv. rewrite (generate_choropleth_resolved _ _ _ _ _ _ _ Hc Hv).
  unfold infer_id_field, getitem_str. by rewrite Hm.
Qed.

Lemma empty_feature_list_IndexError_witness :
  let mdf := {| columns := ["Country"; "Value"];
                rows := [[Some (Text "Germany"); Some (Num 7)]] |} in
  let m : gmap string json :=
    list_to_map [("type", JStr "FeatureCollection"); ("features", JArr [])] in
  generate_choropleth mdf (JObj m) None None None = Raise IndexError.
Proof.
  intros mdf m.
  apply (empty_feature_list_IndexError mdf m None None "Country" "Value"); reflexivity.
Defined.

(** X13: a first feature whose [properties] member is [null] (or a number,
    or a boolean) makes the inference fail with [TypeError]: the default
    [{}] of [.get] only stands in for a missing member, and the membership
    test on such a value is an error. *)
Theorem null_properties_TypeError (mdf : DataFrame) (m fm : gmap string json)
    (rest : list json) (p : json)
    (migration_country_field migration_value_field : option string)
    (country value : string) :
  m !! "features" = Some (JArr (JObj fm :: rest)) →
  fm !! "properties" = Some p →
  (p = JNull ∨ (∃ b, p = JBool b) ∨ (∃ x, p = JNum x)) →
  infer_country_field mdf migration_country_field = Some country →
  infer_value_field mdf migration_value_field = Some value →
  generate_choropleth mdf (JObj m) None migration_country_field migration_value_field
  = Raise TypeError.
Proof.
  intros Hm Hfm Hp Hc Hv. rewrite (generate_choropleth_resolved _ _ _ _ _ _ _ Hc Hv).
  assert (infer_id_field (JObj m) None = Raise TypeError) as ->; [|done].
  unfold infer_id_field, getitem_str. rewrite Hm.
  change (next_in id_names (default (JObj ∅) (fm !! "properties")) = Raise TypeError).
  rewrite Hfm. by destruct Hp as [->|[[b ->]|[x ->]]].
Qed.

Lemma null_properties_TypeError_witness :
  let mdf := {| columns := ["Country"; "Value"];
                rows := [[Some (Text "Germany"); Some (Num 7)]] |} in
  let fm : gmap string json :=
    list_to_map [("type", JStr "Feature"); ("properties", JNull)] in
  let m : gmap string json := list_to_map [("features", JArr [JObj fm])] in
  generate_choropleth mdf (JObj m) None None None = Raise TypeError.
Proof.
  intros mdf fm m.
  apply (null_properties_TypeError mdf m fm [] JNull None None "Country" "Value");
    try reflexivity.
  by left.
Defined.

(** ** The centre of the map (line 66) *)





(** On the same frame the exception is the one of [folium.Map]; a frame with
    one complete row goes through. *)
Lemma empty_after_filtering_raises_example :
  let df := {| columns := ["Latitude"; "Longitude"; "offense"];
               rows := [[None; Some (Num 2); Some (Text "theft")];
                        [Some (Num 1); None; None]] |} in
  let df1 := {| columns := ["Latitude"; "Longitude"];
                rows := [[Some (Num 1); Some (Num 2)]; [None; None]] |} in
  @generate_sf_cluster_map_centre window no_float_str 0%nat df 200000
  = Raise (ValueError "Location values cannot contain NaNs.") ∧
  @generate_sf_cluster_map_centre window no_float_str 0%nat df1 200000
  = Return (1%Q, 2%Q).
Proof. split; reflexivity. Qed.
